(** * HttpResponse: status line, reason phrases, parser callback, serializer

    A shallow embedding of [te::httpengine::mitm::http::HttpResponse]
    (HttpResponse.hpp / HttpResponse.cpp) and the properties of its status
    line handling.

    Conventions of the embedding:
    - [std::string] is a [string]: a sequence of 8-bit chars.  The literals
      of the source are [u8] literals, all of them plain ASCII.
    - [std::string::append] is [+:+]; a chain [s.append(a).append(b)] is
      [(s +:+ a) +:+ b], exactly as the calls nest.
    - [uint16_t] is a [Z] in [0, 65536); the conversion of an argument to a
      [uint16_t] parameter is [wrap16].
    - [std::vector<char>] is a [list byte].
    - objects reached through pointers live in a store [gmap nat HttpResponse];
      a pointer is an [option nat], [None] being [nullptr]. *)

From Stdlib Require Import ZArith String Ascii List Strings.Byte Lia Bool.
From stdpp Require Import gmap strings pretty.
Local Open Scope Z_scope.

(** ** Machine integers and string helpers *)

(** Conversion to [uint16_t]: reduction modulo 2^16. *)
Definition wrap16 (z : Z) : Z := z mod 65536.

Definition digit_to_char (d : Z) : ascii := ascii_of_N (48 + Z.to_N d).

(** The decimal digits of a non-negative [n], most significant first, put in
    front of [acc].  A number has no more decimal than binary digits, which
    is the fuel [to_string] gives. *)
Fixpoint to_string_digits (fuel : nat) (n : Z) (acc : string) : string :=
  match fuel with
  | O => acc
  | S fuel' =>
      let acc' := String (digit_to_char (n mod 10)) acc in
      if n / 10 =? 0 then acc' else to_string_digits fuel' (n / 10) acc'
  end.

(** [std::to_string(int)]: decimal, a minus sign for negative values, no
    leading zeros, ["0"] for zero. *)
Definition to_string (n : Z) : string :=
  if n <? 0
  then String "-" (to_string_digits (S (Z.to_nat (Z.log2 (- n)))) (- n) "")
  else to_string_digits (S (Z.to_nat (Z.log2 n))) n "".

(** The two-char line terminator written ["\r\n"] in the source. *)
Definition CRLF : string := String "013" (String "010" "").

(** [all_from n i P]: [P] holds of the [n] integers from [i] on. *)
Fixpoint all_from (n : nat) (i : Z) (P : Z -> bool) : bool :=
  match n with
  | O => true
  | S k => P i && all_from k (i + 1) P
  end.

(** ** Data model *)

(** Modelled from the spec: the enumeration [HttpProtocolVersion] is declared
    in BaseHttpTransaction.hpp, which is not among the sources.  The source
    names the enumerators [HTTP1], [HTTP1_1] and [HTTP2]; the spec adds the
    value a transaction starts with, [Unset]. *)
Inductive HttpProtocolVersion : Type :=
  | Unset
  | HTTP1
  | HTTP1_1
  | HTTP2.

#[global] Instance HttpProtocolVersion_eq_dec : EqDecision HttpProtocolVersion.
Proof. solve_decision. Defined.

(** The fields of an [HttpResponse] object.  [m_statusCode] and
    [m_statusString] are declared in HttpResponse.hpp.  Modelled from the
    spec: [m_headers] and [m_httpVersion] are inherited from
    [BaseHttpTransaction], whose declaration is not among the sources; the
    header collection is taken as the sequence of (name, value) pairs that
    iterating from [begin()] to [end()] visits. *)
Record HttpResponse : Type := mkHttpResponse {
  m_headers : list (string * string);
  m_httpVersion : HttpProtocolVersion;
  m_statusCode : Z;
  m_statusString : string
}.

Definition set_httpVersion (v : HttpProtocolVersion) (t : HttpResponse) : HttpResponse :=
  {| m_headers := m_headers t;
     m_httpVersion := v;
     m_statusCode := m_statusCode t;
     m_statusString := m_statusString t |}.

Definition set_statusCode (c : Z) (t : HttpResponse) : HttpResponse :=
  {| m_headers := m_headers t;
     m_httpVersion := m_httpVersion t;
     m_statusCode := c;
     m_statusString := m_statusString t |}.

Definition set_statusString (s : string) (t : HttpResponse) : HttpResponse :=
  {| m_headers := m_headers t;
     m_httpVersion := m_httpVersion t;
     m_statusCode := m_statusCode t;
     m_statusString := s |}.

(** The fields of the external [http_parser] struct that [OnStatus] reads.
    [data] is the [void*] context pointer: the address of the owning
    transaction, or [None] for [nullptr]. *)
Record http_parser : Type := mk_http_parser {
  http_major : Z;
  http_minor : Z;
  status_code : Z;
  data : option nat
}.

(** The value the documentation of the getter gives for a status not yet
    extracted from any transaction headers. *)
Definition status_not_extracted : Z := 0.

(** ** ReasonPhraseTable: [HttpResponse::StatusCodeToMessage] *)

Definition StatusCodeToMessage (code : Z) : string :=
  match code with
  | 100 => "Continue"
  | 101 => "Switching Protocols"
  | 102 => "Processing"
  | 200 => "OK"
  | 201 => "Created"
  | 202 => "Accepted"
  | 203 => "Non-Authoritative Information"
  | 204 => "No Content"
  | 205 => "Reset Content"
  | 206 => "Partial Content"
  | 207 => "Multi-Status"
  | 208 => "Already Reported"
  | 226 => "IM Used"
  | 300 => "Multiple Choices"
  | 301 => "Moved Permanently"
  | 302 => "Found"
  | 303 => "See Other"
  | 304 => "Not Modified"
  | 305 => "Use Proxy"
  | 306 => "Switch Proxy"
  | 307 => "Temporary Redirect"
  | 308 => "Permanent Redirect"
  | 400 => "Bad Request"
  | 401 => "Unauthorized"
  | 402 => "Payment Required"
  | 403 => "Forbidden"
  | 404 => "Not Found"
  | 405 => "Method Not Allowed"
  | 406 => "Not Acceptable"
  | 407 => "Proxy Authentication Required"
  | 408 => "Request Timeout"
  | 409 => "Conflict"
  | 410 => "Gone"
  | 411 => "Length Required"
  | 412 => "Precondition Failed"
  | 413 => "Request Entity Too Large"
  | 414 => "Request-URI Too Long"
  | 415 => "Unsupported Media Type"
  | 416 => "Requested Range Not Satisfiable"
  | 417 => "Expectation Failed"
  | 418 => "I'm a teapot"
  | 419 => "Authentication Timeout"
  | 420 => "Method Failure"
  | 422 => "Unprocessable Entity"
  | 423 => "Locked"
  | 424 => "Failed Dependency"
  | 426 => "Upgrade Required"
  | 428 => "Precondition Required"
  | 429 => "Too Many Requests"
  | 431 => "Request Header Fields Too Large"
  | 440 => "Login Timeout"
  | 444 => "No Response"
  | 449 => "Retry With"
  | 450 => "Blocked by Windows Parental Controls"
  | 451 => "Unavailable For Legal Reasons"
  | 494 => "Request Header Too Large"
  | 495 => "Cert Error"
  | 496 => "No Cert"
  | 497 => "HTTP to HTTPS"
  | 498 => "Token expired/invalid"
  | 499 => "Client Closed Request"
  | 500 => "Internal Server Error"
  | 501 => "Not Implemented"
  | 502 => "Bad Gateway"
  | 503 => "Service Unavailable"
  | 504 => "Gateway Timeout"
  | 505 => "HTTP Version Not Supported"
  | 506 => "Variant Also Negotiates"
  | 508 => "Loop Detected"
  | 509 => "Bandwidth Limit Exceeded"
  | 510 => "Not Extended"
  | 598 => "Network read timeout error"
  | 599 => "Network connect timeout error"
  | _ => ""
  end.

(** The case labels of the switch, in source order. *)
Definition known_status_codes : list Z :=
  [100; 101; 102;
   200; 201; 202; 203; 204; 205; 206; 207; 208; 226;
   300; 301; 302; 303; 304; 305; 306; 307; 308;
   400; 401; 402; 403; 404; 405; 406; 407; 408; 409; 410; 411; 412; 413;
   414; 415; 416; 417; 418; 419; 420; 422; 423; 424; 426; 428; 429; 431;
   440; 444; 449; 450; 451; 494; 495; 496; 497; 498; 499;
   500; 501; 502; 503; 504; 505; 506; 508; 509; 510; 598; 599].

Definition is_known_status_code (c : Z) : bool :=
  existsb (Z.eqb c) known_status_codes.

(** The table that the switch encodes: each case label with the phrase
    returned for it, in source order. *)
Definition reason_phrase_table : list (Z * string) :=
  [
   (100, "Continue");
   (101, "Switching Protocols");
   (102, "Processing");
   (200, "OK");
   (201, "Created");
   (202, "Accepted");
   (203, "Non-Authoritative Information");
   (204, "No Content");
   (205, "Reset Content");
   (206, "Partial Content");
   (207, "Multi-Status");
   (208, "Already Reported");
   (226, "IM Used");
   (300, "Multiple Choices");
   (301, "Moved Permanently");
   (302, "Found");
   (303, "See Other");
   (304, "Not Modified");
   (305, "Use Proxy");
   (306, "Switch Proxy");
   (307, "Temporary Redirect");
   (308, "Permanent Redirect");
   (400, "Bad Request");
   (401, "Unauthorized");
   (402, "Payment Required");
   (403, "Forbidden");
   (404, "Not Found");
   (405, "Method Not Allowed");
   (406, "Not Acceptable");
   (407, "Proxy Authentication Required");
   (408, "Request Timeout");
   (409, "Conflict");
   (410, "Gone");
   (411, "Length Required");
   (412, "Precondition Failed");
   (413, "Request Entity Too Large");
   (414, "Request-URI Too Long");
   (415, "Unsupported Media Type");
   (416, "Requested Range Not Satisfiable");
   (417, "Expectation Failed");
   (418, "I'm a teapot");
   (419, "Authentication Timeout");
   (420, "Method Failure");
   (422, "Unprocessable Entity");
   (423, "Locked");
   (424, "Failed Dependency");
   (426, "Upgrade Required");
   (428, "Precondition Required");
   (429, "Too Many Requests");
   (431, "Request Header Fields Too Large");
   (440, "Login Timeout");
   (444, "No Response");
   (449, "Retry With");
   (450, "Blocked by Windows Parental Controls");
   (451, "Unavailable For Legal Reasons");
   (494, "Request Header Too Large");
   (495, "Cert Error");
   (496, "No Cert");
   (497, "HTTP to HTTPS");
   (498, "Token expired/invalid");
   (499, "Client Closed Request");
   (500, "Internal Server Error");
   (501, "Not Implemented");
   (502, "Bad Gateway");
   (503, "Service Unavailable");
   (504, "Gateway Timeout");
   (505, "HTTP Version Not Supported");
   (506, "Variant Also Negotiates");
   (508, "Loop Detected");
   (509, "Bandwidth Limit Exceeded");
   (510, "Not Extended");
   (598, "Network read timeout error");
   (599, "Network connect timeout error")
  ].

(** The phrase the table holds for [c]; the empty string when [c] has no
    entry. *)
Definition table_phrase (c : Z) : string :=
  match find (fun entry => fst entry =? c) reason_phrase_table with
  | Some entry => snd entry
  | None => ""
  end.

(** ** StatusLineModel *)

(** [HttpResponse::HttpResponse()].  The constructor body installs the
    callback and allocates the parser, whose [data] is set to [this].  No
    initializer is given for [m_statusCode]: the member keeps whatever its
    storage held, [storage] here.  [m_statusString] is default-constructed.
    [http_parser_init] zeroes the other fields of the parser.
    Modelled from the spec: the base-class part starts with the protocol
    version [Unset]; the header collection starts empty. *)
Definition HttpResponse_ctor (storage : Z) (this : nat) : HttpResponse * http_parser :=
  ({| m_headers := [];
      m_httpVersion := Unset;
      m_statusCode := wrap16 storage;
      m_statusString := "" |},
   {| http_major := 0; http_minor := 0; status_code := 0; data := Some this |}).

(** [const uint16_t HttpResponse::StatusCode() const] *)
Definition StatusCode (t : HttpResponse) : Z := m_statusCode t.

(** [void HttpResponse::StatusCode(const uint16_t code)] *)
Definition StatusCode_set (code : Z) (t : HttpResponse) : HttpResponse :=
  let code := wrap16 code in
  let t := set_statusCode code t in
  let s := "" in
  let s :=
    if decide (m_httpVersion t = HTTP1) then s +:+ "HTTP/1.0 "
    else if decide (m_httpVersion t = HTTP1_1) then s +:+ "HTTP/1.1 "
    else if decide (m_httpVersion t = HTTP2) then s +:+ "HTTP/2.0 "
    else s in
  let s := s +:+ to_string code in
  let s := (s +:+ " ") +:+ StatusCodeToMessage code in
  set_statusString s t.

(** [const std::string& HttpResponse::StatusString() const] *)
Definition StatusString (t : HttpResponse) : string := m_statusString t.

(** [void HttpResponse::StatusString(const std::string& status)] *)
Definition StatusString_set (status : string) (t : HttpResponse) : HttpResponse :=
  set_statusString status t.

(** ** HeaderSerializer *)

(** [std::string HttpResponse::HeadersToString() const] *)
Definition HeadersToString (t : HttpResponse) : string :=
  let ret := "" in
  let ret := ret +:+ m_statusString t in
  let ret :=
    fold_left
      (fun ret header => (((ret +:+ CRLF) +:+ fst header) +:+ ": ") +:+ snd header)
      (m_headers t) ret in
  ret +:+ (CRLF +:+ CRLF).

(** [std::vector<char>(first, last)]: one element per char of the range. *)
Fixpoint vector_of_range (s : string) : list byte :=
  match s with
  | EmptyString => []
  | String c rest => byte_of_ascii c :: vector_of_range rest
  end.

(** [std::vector<char> HttpResponse::HeadersToVector() const] *)
Definition HeadersToVector (t : HttpResponse) : list byte :=
  let headersAsString := HeadersToString t in
  vector_of_range headersAsString.

(** ** IncrementalParserAdapter: [HttpResponse::OnStatus] *)

(** [static int HttpResponse::OnStatus(http_parser* parser, const char* at,
    size_t length)].  [parser] is [None] for [nullptr].  The result is the
    returned int and the store after the call; it is [None] when
    [parser->data] is neither null nor the address of a live transaction,
    for which the source defines no behaviour. *)
Definition OnStatus (parser : option http_parser) (at_ : list byte) (length : Z)
    (h : gmap nat HttpResponse) : option (Z * gmap nat HttpResponse) :=
  match parser with
  | Some p =>
      match data p with
      | None => Some (-1, h)
      | Some a =>
          match h !! a with
          | None => None
          | Some trans =>
              let trans :=
                if http_major p =? 1 then
                  if http_minor p =? 0 then set_httpVersion HTTP1 trans
                  else set_httpVersion HTTP1_1 trans
                else if http_major p =? 2 then set_httpVersion HTTP2 trans
                else set_httpVersion HTTP1_1 trans in
              let trans := StatusCode_set (status_code p) trans in
              Some (0, <[a := trans]> h)
          end
      end
  | None => Some (-1, h)
  end.

(** ** The spec's wording, for comparison with the code *)

(** The version token of the status line; none for [Unset]. *)
Definition version_token (v : HttpProtocolVersion) : option string :=
  match v with
  | Unset => None
  | HTTP1 => Some "HTTP/1.0"
  | HTTP1_1 => Some "HTTP/1.1"
  | HTTP2 => Some "HTTP/2.0"
  end.

(** [<version-token> <code> <phrase>], the token and its space left out when
    there is no token. *)
Definition status_line_spec (v : HttpProtocolVersion) (c : Z) : string :=
  match version_token v with
  | Some tok => tok +:+ " " +:+ to_string c +:+ " " +:+ StatusCodeToMessage c
  | None => to_string c +:+ " " +:+ StatusCodeToMessage c
  end.

(** The version the spec assigns to a parser-reported (major, minor). *)
Definition resolved_version (major minor : Z) : HttpProtocolVersion :=
  if decide (major = 1 /\ minor = 0) then HTTP1
  else if decide (major = 1 /\ minor <> 0) then HTTP1_1
  else if decide (major = 2) then HTTP2
  else HTTP1_1.

(** For each header, CRLF and then ["Name: Value"]. *)
Fixpoint header_lines (hs : list (string * string)) : string :=
  match hs with
  | [] => ""
  | (name, value) :: rest => CRLF +:+ name +:+ ": " +:+ value +:+ header_lines rest
  end.

(** UTF-8 encoding of one Unicode code point. *)
Definition utf8_byte (n : Z) : byte := byte_of_ascii (ascii_of_N (Z.to_N n)).

Definition utf8_encode_point (c : Z) : list byte :=
  if c <? 128 then [utf8_byte c]
  else if c <? 2048 then
    [utf8_byte (Z.lor 192 (Z.shiftr c 6));
     utf8_byte (Z.lor 128 (Z.land c 63))]
  else if c <? 65536 then
    [utf8_byte (Z.lor 224 (Z.shiftr c 12));
     utf8_byte (Z.lor 128 (Z.land (Z.shiftr c 6) 63));
     utf8_byte (Z.lor 128 (Z.land c 63))]
  else
    [utf8_byte (Z.lor 240 (Z.shiftr c 18));
     utf8_byte (Z.lor 128 (Z.land (Z.shiftr c 12) 63));
     utf8_byte (Z.lor 128 (Z.land (Z.shiftr c 6) 63));
     utf8_byte (Z.lor 128 (Z.land c 63))].

(** UTF-8 encoding of a text, given as its code points. *)
Definition utf8_encode (text : list Z) : list byte :=
  flat_map utf8_encode_point text.

(** A [std::string] holds the text [text] when its chars are the UTF-8
    encoding of [text]. *)
Definition holds_text (s : string) (text : list Z) : Prop :=
  list_byte_of_string s = utf8_encode text.

(** A string of chars below 128, and the code points of such a string. *)
Definition is_ascii_string (s : string) : bool :=
  forallb (fun c => (N_of_ascii c <? 128)%N) (list_ascii_of_string s).

Definition code_points (s : string) : list Z :=
  map (fun c => Z.of_N (N_of_ascii c)) (list_ascii_of_string s).

(** ** Auxiliary notions for the further properties *)

(** The chars CR and LF, and the strings that contain one of them. *)
Definition is_line_break (c : ascii) : bool :=
  (N_of_ascii c =? 13)%N || (N_of_ascii c =? 10)%N.

Fixpoint has_line_break (s : string) : bool :=
  match s with
  | EmptyString => false
  | String c rest => is_line_break c || has_line_break rest
  end.

(** A reader of status lines, the tool by which a status line is shown to
    determine the version and the code it was built from.  It is no part of
    the source. *)
Definition digit_value (c : ascii) : option Z :=
  let n := Z.of_N (N_of_ascii c) in
  if (48 <=? n) && (n <=? 57) then Some (n - 48) else None.

Fixpoint leading_number (s : string) (acc : Z) : Z :=
  match s with
  | EmptyString => acc
  | String c rest =>
      match digit_value c with
      | Some d => leading_number rest (10 * acc + d)
      | None => acc
      end
  end.

Fixpoint strip_prefix (p s : string) : option string :=
  match p, s with
  | EmptyString, _ => Some s
  | String a p', String b s' => if Ascii.eqb a b then strip_prefix p' s' else None
  | String _ _, EmptyString => None
  end.

Definition read_status_line (s : string) : HttpProtocolVersion * Z :=
  match strip_prefix "HTTP/1.0 " s with
  | Some rest => (HTTP1, leading_number rest 0)
  | None =>
      match strip_prefix "HTTP/1.1 " s with
      | Some rest => (HTTP1_1, leading_number rest 0)
      | None =>
          match strip_prefix "HTTP/2.0 " s with
          | Some rest => (HTTP2, leading_number rest 0)
          | None => (Unset, leading_number s 0)
          end
      end
  end.

(** What the reader must find in the part of a status line that starts at
    the code: no version, the code itself, and no line break. *)
Definition status_text_ok (c : Z) : bool :=
  let body := to_string c +:+ " " +:+ StatusCodeToMessage c in
  match read_status_line body with
  | (Unset, n) => (n =? c) && negb (has_line_break body)
  | _ => false
  end.

(** The chars that the headers add to the serialized preamble. *)
Definition headers_size (hs : list (string * string)) : nat :=
  list_sum (map (fun h => (4 + String.length (fst h) + String.length (snd h))%nat) hs).

(** * Properties *)

(** ** Sanity checks of the embedding *)

Example to_string_examples :
  to_string 0 = "0" /\ to_string 7 = "7" /\ to_string 200 = "200" /\
  to_string 65535 = "65535" /\ to_string 1000 = "1000" /\ to_string (-42) = "-42".
Proof. repeat split; reflexivity. Qed.

Example status_code_set_example :
  StatusString (StatusCode_set 404 (mkHttpResponse [] HTTP1_1 0 "anything"))
  = "HTTP/1.1 404 Not Found".
Proof. reflexivity. Qed.

(** ** Helper lemmas on strings and ranges *)

Lemma append_assoc (a b c : string) : (a +:+ b) +:+ c = a +:+ (b +:+ c).
Proof.
  induction a as [|ch a IH]; [reflexivity|].
  change (String ch ((a +:+ b) +:+ c) = String ch (a +:+ (b +:+ c))).
  now rewrite IH.
Qed.

Lemma append_empty_r (a : string) : a +:+ "" = a.
Proof.
  induction a as [|ch a IH]; [reflexivity|].
  change (String ch (a +:+ "") = String ch a).
  now rewrite IH.
Qed.

Lemma all_from_spec (P : Z -> bool) (n : nat) :
  forall i, all_from n i P = true ->
  forall c, i <= c < i + Z.of_nat n -> P c = true.
Proof.
  induction n as [|k IH]; intros i Hall c Hc.
  - simpl in Hc. lia.
  - simpl in Hall. apply andb_true_iff in Hall as [Hi Hrest].
    destruct (Z.eq_dec c i) as [->|Hne]; [exact Hi|].
    apply (IH (i + 1) Hrest). lia.
Qed.

Lemma wrap16_small (c : Z) : 0 <= c < 65536 -> wrap16 c = c.
Proof. intros Hc. unfold wrap16. now apply Z.mod_small. Qed.

(** On the whole [uint16_t] range [to_string] prints what stdpp's decimal
    printer prints. *)
Lemma to_string_decimal (c : Z) :
  0 <= c < 65536 -> to_string c = pretty c.
Proof.
  intros Hc.
  assert (Hall : all_from (Z.to_nat 65536) 0
                   (fun c => String.eqb (to_string c) (pretty c)) = true)
    by (vm_compute; reflexivity).
  apply String.eqb_eq.
  apply (all_from_spec _ _ _ Hall c).
  change (Z.of_nat (Z.to_nat 65536)) with 65536. lia.
Qed.

(** The string the code-setter builds, whatever the object held before. *)
Lemma StatusCode_set_string (t : HttpResponse) (c : Z) :
  m_statusString (StatusCode_set c t)
  = status_line_spec (m_httpVersion t) (wrap16 c).
Proof.
  unfold StatusCode_set, status_line_spec, set_statusString, set_statusCode.
  cbn [m_statusString m_httpVersion].
  destruct (m_httpVersion t); cbn [version_token];
    repeat case_decide; try congruence;
    rewrite ?append_assoc; reflexivity.
Qed.

Lemma StatusCode_set_frame (t : HttpResponse) (c : Z) :
  m_statusCode (StatusCode_set c t) = wrap16 c
  /\ m_httpVersion (StatusCode_set c t) = m_httpVersion t
  /\ m_headers (StatusCode_set c t) = m_headers t.
Proof. repeat split. Qed.

(** The switch on the whole [uint16_t] range: a non-empty phrase exactly on
    its case labels. *)
Lemma StatusCodeToMessage_range (c : Z) :
  0 <= c < 65536 ->
  (if is_known_status_code c
   then negb (String.eqb (StatusCodeToMessage c) "")
   else String.eqb (StatusCodeToMessage c) "") = true.
Proof.
  intros Hc.
  assert (Hall : all_from (Z.to_nat 65536) 0
            (fun c => if is_known_status_code c
                      then negb (String.eqb (StatusCodeToMessage c) "")
                      else String.eqb (StatusCodeToMessage c) "") = true)
    by (vm_compute; reflexivity).
  apply (all_from_spec _ _ _ Hall c).
  change (Z.of_nat (Z.to_nat 65536)) with 65536. lia.
Qed.

Lemma is_known_status_code_In (c : Z) :
  is_known_status_code c = true <-> In c known_status_codes.
Proof.
  unfold is_known_status_code. rewrite existsb_exists. split.
  - intros [x [Hin Heq]]. apply Z.eqb_eq in Heq. now subst.
  - intros Hin. exists c. split; [exact Hin | apply Z.eqb_refl].
Qed.

(** ** StatusLineModel: the code-setter *)

(** C1: for every status code [c] and protocol version [v], after
    [StatusCode(c)] the stored status line is the version token, a space, the
    decimal code, a space and the phrase of [c]; the token is "HTTP/1.0",
    "HTTP/1.1" or "HTTP/2.0" and is left out, with its space, when the
    version is unset.  A text stored before by the text-setter makes no
    difference.  The decimal code is the one stdpp's [pretty] prints. *)
Theorem StatusCode_set_status_line (t : HttpResponse) (c : Z) (v : HttpProtocolVersion) :
  0 <= c < 65536 ->
  m_httpVersion t = v ->
  StatusString (StatusCode_set c t) = status_line_spec v c
  /\ (forall s : string,
        StatusString (StatusCode_set c (StatusString_set s t)) = status_line_spec v c)
  /\ status_line_spec Unset c = to_string c +:+ " " +:+ StatusCodeToMessage c
  /\ status_line_spec HTTP1 c = "HTTP/1.0 " +:+ to_string c +:+ " " +:+ StatusCodeToMessage c
  /\ status_line_spec HTTP1_1 c = "HTTP/1.1 " +:+ to_string c +:+ " " +:+ StatusCodeToMessage c
  /\ status_line_spec HTTP2 c = "HTTP/2.0 " +:+ to_string c +:+ " " +:+ StatusCodeToMessage c
  /\ to_string c = pretty c.
Proof.
  intros Hc Hv. unfold StatusString.
  split; [|split].
  - rewrite StatusCode_set_string, (wrap16_small c Hc), Hv. reflexivity.
  - intros s. rewrite StatusCode_set_string, (wrap16_small c Hc).
    unfold StatusString_set, set_statusString. cbn [m_httpVersion].
    rewrite Hv. reflexivity.
  - do 4 (split; [reflexivity|]). apply (to_string_decimal c Hc).
Qed.

Lemma StatusCode_set_status_line_witness :
  0 <= 404 < 65536
  /\ StatusString (StatusCode_set 404 (mkHttpResponse [] HTTP2 0 "custom text"))
     = "HTTP/2.0 404 Not Found".
Proof.
  split; [lia|].
  destruct (StatusCode_set_status_line
              (mkHttpResponse [] HTTP2 0 "custom text") 404 HTTP2) as [H _];
    [lia | reflexivity | exact H].
Defined.

(** C2: what the constructor leaves in a fresh transaction.  The status
    string is empty for every storage content.  The status code is the
    content of the storage: the constructor gives [m_statusCode] no value, so
    a transaction built in storage filled with the byte 0xCD reads 52685, not
    the 0 that the getter's documentation announces for a status not
    extracted yet. *)
Theorem HttpResponse_ctor_statusCode_not_initialized :
  (forall storage this, StatusString (fst (HttpResponse_ctor storage this)) = "")
  /\ (forall storage this,
        StatusCode (fst (HttpResponse_ctor storage this)) = wrap16 storage)
  /\ StatusCode (fst (HttpResponse_ctor 52685 1)) = 52685
  /\ StatusCode (fst (HttpResponse_ctor 52685 1)) <> status_not_extracted.
Proof.
  split; [|split; [|split]].
  - intros storage this. reflexivity.
  - intros storage this. reflexivity.
  - reflexivity.
  - discriminate.
Qed.

(** ** ReasonPhraseTable *)

(** The switch and the table agree on the whole [uint16_t] range. *)
Lemma StatusCodeToMessage_table_range (c : Z) :
  0 <= c < 65536 -> StatusCodeToMessage c = table_phrase c.
Proof.
  intros Hc.
  assert (Hall : all_from (Z.to_nat 65536) 0
            (fun c => String.eqb (StatusCodeToMessage c) (table_phrase c)) = true)
    by (vm_compute; reflexivity).
  apply String.eqb_eq.
  apply (all_from_spec _ _ _ Hall c).
  change (Z.of_nat (Z.to_nat 65536)) with 65536. lia.
Qed.

(** Every entry of the table is what the switch returns for its label. *)
Lemma reason_phrase_table_entries :
  Forall (fun entry => StatusCodeToMessage (fst entry) = snd entry)
         reason_phrase_table.
Proof.
  apply List.Forall_forall. intros entry Hin.
  assert (Hall : forallb (fun entry =>
                   String.eqb (StatusCodeToMessage (fst entry)) (snd entry))
                   reason_phrase_table = true) by (vm_compute; reflexivity).
  rewrite forallb_forall in Hall. apply String.eqb_eq. now apply Hall.
Qed.

(** C3: [StatusCodeToMessage] is defined on every [uint16_t]; for each code
    of the table it gives the phrase the table holds for that code, among
    them 100, 200, 404, 451 and 599, and the empty string for every other
    code; so the code-setter at 999 under HTTP/1.1 leaves "HTTP/1.1 999 ". *)
Theorem StatusCodeToMessage_table (c : Z) (t : HttpResponse) :
  0 <= c < 65536 ->
  m_httpVersion t = HTTP1_1 ->
  (exists phrase : string, StatusCodeToMessage c = phrase)
  /\ StatusCodeToMessage 100 = "Continue"
  /\ StatusCodeToMessage 200 = "OK"
  /\ StatusCodeToMessage 404 = "Not Found"
  /\ StatusCodeToMessage 451 = "Unavailable For Legal Reasons"
  /\ StatusCodeToMessage 599 = "Network connect timeout error"
  /\ (In c known_status_codes -> StatusCodeToMessage c <> "")
  /\ (~ In c known_status_codes -> StatusCodeToMessage c = "")
  /\ StatusString (StatusCode_set 999 t) = "HTTP/1.1 999 "
  /\ (forall (code : Z) (phrase : string),
        In (code, phrase) reason_phrase_table -> StatusCodeToMessage code = phrase)
  /\ map fst reason_phrase_table = known_status_codes
  /\ StatusCodeToMessage c = table_phrase c.
Proof.
  intros Hc Hv.
  pose proof (StatusCodeToMessage_range c Hc) as Hr.
  split; [eexists; reflexivity|].
  do 5 (split; [reflexivity|]).
  split; [|split; [|split; [|split; [|split]]]].
  - intros Hin. apply is_known_status_code_In in Hin. rewrite Hin in Hr.
    intros Heq. rewrite Heq in Hr. discriminate.
  - intros Hnin.
    destruct (is_known_status_code c) eqn:Hk.
    + exfalso. apply Hnin. now apply is_known_status_code_In.
    + now apply String.eqb_eq.
  - unfold StatusString. rewrite StatusCode_set_string, Hv. reflexivity.
  - intros code phrase Hin.
    pose proof reason_phrase_table_entries as Hall.
    rewrite List.Forall_forall in Hall. apply (Hall (code, phrase) Hin).
  - reflexivity.
  - apply (StatusCodeToMessage_table_range c Hc).
Qed.

Lemma StatusCodeToMessage_table_witness :
  0 <= 420 < 65536
  /\ StatusCodeToMessage 420 <> ""
  /\ StatusString (StatusCode_set 999 (mkHttpResponse [] HTTP1_1 200 "HTTP/1.1 200 OK"))
     = "HTTP/1.1 999 ".
Proof.
  split; [lia|].
  destruct (StatusCodeToMessage_table 420
              (mkHttpResponse [] HTTP1_1 200 "HTTP/1.1 200 OK"))
    as (_ & _ & _ & _ & _ & _ & Hin & _ & H999 & _); [lia | reflexivity |].
  split; [|exact H999].
  apply Hin. unfold known_status_codes. simpl. tauto.
Defined.

(** ** HeaderSerializer *)

(** The loop over the headers appends [header_lines] to what [ret] held. *)
Lemma HeadersToString_loop (hs : list (string * string)) :
  forall ret : string,
    fold_left
      (fun ret header => (((ret +:+ CRLF) +:+ fst header) +:+ ": ") +:+ snd header)
      hs ret
    = ret +:+ header_lines hs.
Proof.
  induction hs as [|[name value] rest IH]; intros ret.
  - cbn [fold_left header_lines]. now rewrite append_empty_r.
  - cbn [fold_left header_lines fst snd]. rewrite IH.
    now rewrite !append_assoc.
Qed.

Lemma vector_of_range_bytes (s : string) :
  vector_of_range s = list_byte_of_string s.
Proof.
  unfold list_byte_of_string.
  induction s as [|c rest IH]; [reflexivity|].
  cbn [vector_of_range list_ascii_of_string map]. now rewrite IH.
Qed.

Lemma vector_of_range_length (s : string) :
  List.length (vector_of_range s) = String.length s.
Proof.
  induction s as [|c rest IH]; [reflexivity|].
  cbn [vector_of_range List.length String.length]. now rewrite IH.
Qed.

(** C4: [HeadersToString] returns the status string, then for each header in
    iteration order CRLF and "Name: Value", then CRLF CRLF; with the status
    line "HTTP/1.1 200 OK" and the headers Content-Type: text/html and
    X-Test: 1 it returns
    "HTTP/1.1 200 OK\r\nContent-Type: text/html\r\nX-Test: 1\r\n\r\n". *)
Theorem HeadersToString_layout (t : HttpResponse) :
  HeadersToString t
  = m_statusString t +:+ header_lines (m_headers t) +:+ CRLF +:+ CRLF
  /\ (forall (v : HttpProtocolVersion) (code : Z),
        HeadersToString
          (mkHttpResponse [("Content-Type", "text/html"); ("X-Test", "1")]
                          v code "HTTP/1.1 200 OK")
        = "HTTP/1.1 200 OK" +:+ CRLF +:+ "Content-Type: text/html" +:+ CRLF
          +:+ "X-Test: 1" +:+ CRLF +:+ CRLF).
Proof.
  split.
  - unfold HeadersToString. rewrite HeadersToString_loop.
    change ("" +:+ m_statusString t) with (m_statusString t).
    now rewrite append_assoc.
  - intros v code. reflexivity.
Qed.

(** An ASCII string holds the text made of its own chars. *)
Lemma holds_text_ascii (s : string) :
  is_ascii_string s = true -> holds_text s (code_points s).
Proof.
  unfold is_ascii_string, holds_text, code_points, list_byte_of_string, utf8_encode.
  induction s as [|c rest IH]; [reflexivity|].
  cbn [list_ascii_of_string forallb map flat_map].
  intros Hall. apply andb_true_iff in Hall as [Hc Hrest].
  rewrite (IH Hrest). unfold utf8_encode_point.
  apply N.ltb_lt in Hc.
  destruct (Z.ltb_spec (Z.of_N (N_of_ascii c)) 128) as [_|Hge]; [|lia].
  unfold utf8_byte. rewrite N2Z.id, ascii_N_embedding. reflexivity.
Qed.

(** C5: [HeadersToVector] returns, byte for byte, the chars of the string
    [HeadersToString] returns: the same length, and the bytes turn back into
    that string; whenever that string holds a text, i.e. its chars are the
    UTF-8 encoding of the text, the vector is the UTF-8 encoding of the
    text; an ASCII string holds the text of its own chars. *)
Theorem HeadersToVector_bytes (t : HttpResponse) :
  HeadersToVector t = list_byte_of_string (HeadersToString t)
  /\ string_of_list_byte (HeadersToVector t) = HeadersToString t
  /\ List.length (HeadersToVector t) = String.length (HeadersToString t)
  /\ (forall text : list Z,
        holds_text (HeadersToString t) text -> HeadersToVector t = utf8_encode text)
  /\ (is_ascii_string (HeadersToString t) = true ->
        HeadersToVector t = utf8_encode (code_points (HeadersToString t))).
Proof.
  unfold HeadersToVector, holds_text.
  rewrite vector_of_range_length, vector_of_range_bytes.
  rewrite string_of_list_byte_of_string.
  repeat split.
  - intros text Htext. exact Htext.
  - intros Hascii. apply (holds_text_ascii _ Hascii).
Qed.

Lemma HeadersToVector_bytes_witness :
  let caf := String "099" (String "097" (String "102" (String "195" (String "169" "")))) in
  let t := mkHttpResponse [("X-Place", caf)] HTTP1_1 200 "HTTP/1.1 200 OK" in
  let text := code_points ("HTTP/1.1 200 OK" +:+ CRLF +:+ "X-Place: caf")
              ++ [233] ++ code_points (CRLF +:+ CRLF) in
  holds_text (HeadersToString t) text
  /\ HeadersToVector t = utf8_encode text.
Proof.
  intros caf t text.
  assert (Htext : holds_text (HeadersToString t) text) by (vm_compute; reflexivity).
  split; [exact Htext|].
  destruct (HeadersToVector_bytes t) as (_ & _ & _ & Hutf8 & _).
  exact (Hutf8 text Htext).
Defined.

(** ** IncrementalParserAdapter *)

(** The version the branch chain of [OnStatus] stores is the one the spec
    assigns to (major, minor). *)
Lemma OnStatus_branches (p : http_parser) (trans : HttpResponse) :
  (if http_major p =? 1 then
     if http_minor p =? 0 then set_httpVersion HTTP1 trans
     else set_httpVersion HTTP1_1 trans
   else if http_major p =? 2 then set_httpVersion HTTP2 trans
   else set_httpVersion HTTP1_1 trans)
  = set_httpVersion (resolved_version (http_major p) (http_minor p)) trans.
Proof.
  unfold resolved_version.
  destruct (Z.eqb_spec (http_major p) 1) as [H1|H1];
    [destruct (Z.eqb_spec (http_minor p) 0) as [H0|H0]
    |destruct (Z.eqb_spec (http_major p) 2) as [H2|H2]];
    repeat case_decide; first [reflexivity | lia].
Qed.

(** What a call with a non-null parser and a live transaction does. *)
Lemma OnStatus_success (p : http_parser) (a : nat) (t : HttpResponse)
    (h : gmap nat HttpResponse) (at_ : list byte) (len : Z) :
  data p = Some a ->
  h !! a = Some t ->
  OnStatus (Some p) at_ len h
  = Some (0, <[a := StatusCode_set (status_code p)
                      (set_httpVersion
                         (resolved_version (http_major p) (http_minor p)) t)]> h).
Proof.
  intros Hd Ht. unfold OnStatus. rewrite Hd, Ht.
  now rewrite OnStatus_branches.
Qed.

(** C6: a successful call of the status callback stores HTTP/1.0 for major 1
    and minor 0, HTTP/1.1 for major 1 and any other minor, HTTP/2 for major
    2 and any minor, HTTP/1.1 for every other major; it then runs the
    code-setter on the parser's status code, so that the rebuilt status line
    carries the version just stored. *)
Theorem OnStatus_version_resolution (p : http_parser) (a : nat) (t : HttpResponse)
    (h : gmap nat HttpResponse) (at_ : list byte) (len : Z) :
  data p = Some a ->
  h !! a = Some t ->
  0 <= status_code p < 65536 ->
  exists t' : HttpResponse,
    OnStatus (Some p) at_ len h = Some (0, <[a := t']> h)
    /\ t' = StatusCode_set (status_code p)
              (set_httpVersion (resolved_version (http_major p) (http_minor p)) t)
    /\ (http_major p = 1 -> http_minor p = 0 -> m_httpVersion t' = HTTP1)
    /\ (http_major p = 1 -> http_minor p <> 0 -> m_httpVersion t' = HTTP1_1)
    /\ (http_major p = 2 -> m_httpVersion t' = HTTP2)
    /\ (http_major p <> 1 -> http_major p <> 2 -> m_httpVersion t' = HTTP1_1)
    /\ m_statusCode t' = status_code p
    /\ m_statusString t' = status_line_spec (m_httpVersion t') (status_code p)
    /\ m_headers t' = m_headers t.
Proof.
  intros Hd Ht Hc.
  eexists. split; [apply (OnStatus_success p a t h at_ len Hd Ht)|].
  split; [reflexivity|].
  rewrite StatusCode_set_string.
  destruct (StatusCode_set_frame
              (set_httpVersion (resolved_version (http_major p) (http_minor p)) t)
              (status_code p)) as (Hcode & Hver & Hhdr).
  rewrite Hcode, Hver, Hhdr, (wrap16_small _ Hc).
  cbn [set_httpVersion m_httpVersion m_headers].
  unfold resolved_version.
  repeat split; intros; repeat case_decide; first [reflexivity | lia].
Qed.

Lemma OnStatus_version_resolution_witness :
  let t := fst (HttpResponse_ctor 0 7) in
  let p := mk_http_parser 2 0 404 (Some 7%nat) in
  exists t' : HttpResponse,
    OnStatus (Some p) [] 9 {[ 7%nat := t ]} = Some (0, <[7%nat := t']> {[ 7%nat := t ]})
    /\ m_httpVersion t' = HTTP2
    /\ m_statusString t' = "HTTP/2.0 404 Not Found".
Proof.
  intros t p.
  destruct (OnStatus_version_resolution p 7%nat t {[ 7%nat := t ]} [] 9)
    as (t' & Hrun & Heq & _ & _ & H2 & _ & _ & Hstr & _).
  - reflexivity.
  - apply lookup_singleton_eq.
  - cbn [status_code p]. lia.
  - exists t'. split; [exact Hrun|]. split; [apply H2; reflexivity|].
    rewrite Hstr, (H2 eq_refl). reflexivity.
Defined.

(** C7: the status callback returns the failure value -1 exactly when the
    parser pointer is null or the transaction pointer read from it is null;
    a failing call leaves the store, hence every transaction's status code,
    version and status string, as it was; every other call returns 0. *)
Theorem OnStatus_failure_iff_null (parser : option http_parser) (at_ : list byte)
    (len : Z) (h : gmap nat HttpResponse) :
  (forall p a, parser = Some p -> data p = Some a -> is_Some (h !! a)) ->
  exists (r : Z) (h' : gmap nat HttpResponse),
    OnStatus parser at_ len h = Some (r, h')
    /\ (r = -1 <->
        parser = None \/ exists p, parser = Some p /\ data p = None)
    /\ (r = -1 -> h' = h)
    /\ (r <> -1 -> r = 0).
Proof.
  intros Hlive.
  destruct parser as [p|].
  - destruct (data p) as [a|] eqn:Hd.
    + destruct (Hlive p a eq_refl Hd) as [t Ht].
      eexists _, _. split; [apply (OnStatus_success p a t h at_ len Hd Ht)|].
      split; [|split]; [|discriminate|reflexivity].
      split; [discriminate|].
      intros [Hnone|(p' & Hp' & Hd')]; [discriminate|].
      injection Hp' as <-. congruence.
    + exists (-1), h. unfold OnStatus. rewrite Hd.
      split; [reflexivity|]. split; [|split]; [|reflexivity|congruence].
      split; [|reflexivity]. intros _. right. exists p. now split.
  - exists (-1), h. split; [reflexivity|].
    split; [|split]; [|reflexivity|congruence].
    split; [|reflexivity]. intros _. now left.
Qed.

Lemma OnStatus_failure_iff_null_witness :
  let t := mkHttpResponse [("Host", "example.org")] HTTP1 200 "HTTP/1.0 200 OK" in
  let h : gmap nat HttpResponse := {[ 3%nat := t ]} in
  OnStatus None [] 0 h = Some (-1, h)
  /\ OnStatus (Some (mk_http_parser 1 1 404 None)) [] 0 h = Some (-1, h)
  /\ exists h', OnStatus (Some (mk_http_parser 1 1 404 (Some 3%nat))) [] 0 h = Some (0, h').
Proof.
  intros t h.
  split; [|split].
  - destruct (OnStatus_failure_iff_null None [] 0 h) as (r & h' & Hrun & Hiff & Hsame & _).
    + intros p a Hp. discriminate.
    + assert (Hr : r = -1) by (apply Hiff; now left).
      rewrite Hrun, Hr, (Hsame Hr). reflexivity.
  - destruct (OnStatus_failure_iff_null (Some (mk_http_parser 1 1 404 None)) [] 0 h)
      as (r & h' & Hrun & Hiff & Hsame & _).
    + intros p a Hp Hd. injection Hp as <-. discriminate.
    + assert (Hr : r = -1) by (apply Hiff; right; eexists; split; reflexivity).
      rewrite Hrun, Hr, (Hsame Hr). reflexivity.
  - destruct (OnStatus_failure_iff_null
                (Some (mk_http_parser 1 1 404 (Some 3%nat))) [] 0 h)
      as (r & h' & Hrun & Hiff & _ & Hok).
    + intros p a Hp Hd. injection Hp as <-. injection Hd as <-.
      exists t. apply lookup_singleton_eq.
    + exists h'. rewrite Hrun. f_equal. f_equal. apply Hok.
      intros Hr. apply Hiff in Hr as [Hnone|(p' & Hp' & Hd')]; [discriminate|].
      injection Hp' as <-. discriminate.
Defined.

(** C8: two calls of the status callback that differ only in the pointer and
    length of the raw reason phrase return the same value and leave the same
    store; after a successful call the status string of the transaction is
    the line built from the version token, the code and the phrase of the
    table. *)
Theorem OnStatus_ignores_reason_phrase (parser : option http_parser)
    (at1 at2 : list byte) (len1 len2 : Z) (h : gmap nat HttpResponse) :
  OnStatus parser at1 len1 h = OnStatus parser at2 len2 h
  /\ (forall h', OnStatus parser at1 len1 h = Some (0, h') ->
        exists p a t',
          parser = Some p /\ data p = Some a /\ h' !! a = Some t'
          /\ m_statusString t'
             = status_line_spec (m_httpVersion t') (wrap16 (status_code p))).
Proof.
  split; [reflexivity|].
  intros h' Hrun.
  destruct parser as [p|]; [|discriminate].
  unfold OnStatus in Hrun.
  destruct (data p) as [a|] eqn:Hd; [|discriminate].
  destruct (h !! a) as [t|] eqn:Ht; [|discriminate].
  rewrite OnStatus_branches in Hrun.
  injection Hrun as <-.
  exists p, a. eexists. split; [reflexivity|]. split; [exact Hd|].
  split; [apply lookup_insert_eq|].
  rewrite StatusCode_set_string. reflexivity.
Qed.

Lemma OnStatus_ignores_reason_phrase_witness :
  let t := mkHttpResponse [] Unset 0 "" in
  let h : gmap nat HttpResponse := {[ 1%nat := t ]} in
  let p := mk_http_parser 1 1 200 (Some 1%nat) in
  OnStatus (Some p) (list_byte_of_string "OK") 2 h
  = OnStatus (Some p) (list_byte_of_string "Totally Fine") 12 h
  /\ exists t', (<[1%nat := StatusCode_set 200 (set_httpVersion HTTP1_1 t)]> h) !! 1%nat = Some t'
                /\ m_statusString t' = "HTTP/1.1 200 OK".
Proof.
  intros t h p.
  destruct (OnStatus_ignores_reason_phrase (Some p)
              (list_byte_of_string "OK") (list_byte_of_string "Totally Fine") 2 12 h)
    as [Hsame Hline].
  split; [exact Hsame|].
  destruct (Hline (<[1%nat := StatusCode_set 200 (set_httpVersion HTTP1_1 t)]> h))
    as (p' & a & t' & Hp & Hd & Ht' & Hstr).
  - reflexivity.
  - injection Hp as <-. injection Hd as <-.
    exists t'. split; [exact Ht'|].
    rewrite lookup_insert_eq in Ht'. injection Ht' as <-. reflexivity.
Defined.

(** ** StatusLineModel: the text-setter and the sentinel *)

(** C9: [StatusString(s)] makes the status string exactly [s] and leaves the
    status code and the protocol version as they were; the getter still
    returns the code the code-setter stored before. *)
Theorem StatusString_set_frame (s : string) (t : HttpResponse) :
  StatusString (StatusString_set s t) = s
  /\ StatusCode (StatusString_set s t) = StatusCode t
  /\ m_httpVersion (StatusString_set s t) = m_httpVersion t
  /\ m_headers (StatusString_set s t) = m_headers t
  /\ (forall c, 0 <= c < 65536 ->
        StatusCode (StatusString_set s (StatusCode_set c t)) = c).
Proof.
  repeat split. intros c Hc.
  unfold StatusCode, StatusString_set, set_statusString. cbn [m_statusCode].
  destruct (StatusCode_set_frame t c) as [Hcode _].
  rewrite Hcode. now apply wrap16_small.
Qed.

Lemma StatusString_set_frame_witness :
  let t := mkHttpResponse [] HTTP1_1 0 "" in
  0 <= 503 < 65536
  /\ StatusString (StatusString_set "custom" (StatusCode_set 503 t)) = "custom"
  /\ StatusCode (StatusString_set "custom" (StatusCode_set 503 t)) = 503.
Proof.
  intros t. split; [lia|].
  destruct (StatusString_set_frame "custom" t) as (_ & _ & _ & _ & Hget).
  destruct (StatusString_set_frame "custom" (StatusCode_set 503 t)) as (Hs & _).
  split; [exact Hs|]. apply Hget. lia.
Defined.

(** C10: the code-setter treats 0 like any other code outside the table:
    under HTTP/1.1 the status string becomes "HTTP/1.1 0 " and the getter
    returns 0, the very value documented for a status not extracted yet. *)
Theorem StatusCode_set_zero (t : HttpResponse) :
  m_httpVersion t = HTTP1_1 ->
  StatusString (StatusCode_set 0 t) = "HTTP/1.1 0 "
  /\ StatusCode (StatusCode_set 0 t) = 0
  /\ StatusCode (StatusCode_set 0 t) = status_not_extracted
  /\ ~ In 0 known_status_codes
  /\ StatusCodeToMessage 0 = ""
  /\ (forall c, 0 <= c < 65536 -> ~ In c known_status_codes ->
        StatusString (StatusCode_set c t) = "HTTP/1.1 " +:+ to_string c +:+ " ").
Proof.
  intros Hv. unfold StatusString.
  split; [rewrite StatusCode_set_string, Hv; reflexivity|].
  do 2 (split; [reflexivity|]).
  split.
  { intros Hin. apply is_known_status_code_In in Hin. discriminate. }
  split; [reflexivity|].
  intros c Hc Hnin.
  rewrite StatusCode_set_string, Hv, (wrap16_small c Hc).
  unfold status_line_spec. cbn [version_token].
  pose proof (StatusCodeToMessage_range c Hc) as Hr.
  destruct (is_known_status_code c) eqn:Hk.
  - exfalso. apply Hnin. now apply is_known_status_code_In.
  - apply String.eqb_eq in Hr. rewrite Hr. reflexivity.
Qed.

Lemma StatusCode_set_zero_witness :
  let t := mkHttpResponse [] HTTP1_1 404 "HTTP/1.1 404 Not Found" in
  StatusString (StatusCode_set 0 t) = "HTTP/1.1 0 "
  /\ StatusCode (StatusCode_set 0 t) = StatusCode (fst (HttpResponse_ctor 0 1)).
Proof.
  intros t.
  destruct (StatusCode_set_zero t) as (Hs & Hc & _); [reflexivity|].
  split; [exact Hs|]. rewrite Hc. reflexivity.
Defined.

(** * Further properties of the code *)

(** ** Helper lemmas *)

Lemma append_length (a b : string) :
  String.length (a +:+ b) = (String.length a + String.length b)%nat.
Proof.
  induction a as [|ch a IH]; [reflexivity|].
  change (S (String.length (a +:+ b)) = S (String.length a + String.length b)).
  now rewrite IH.
Qed.

Lemma header_lines_app (hs1 hs2 : list (string * string)) :
  header_lines (hs1 ++ hs2) = header_lines hs1 +:+ header_lines hs2.
Proof.
  induction hs1 as [|[name value] rest IH]; [reflexivity|].
  cbn [app header_lines]. rewrite IH. now rewrite !append_assoc.
Qed.

Lemma header_lines_length (hs : list (string * string)) :
  String.length (header_lines hs) = headers_size hs.
Proof.
  unfold headers_size.
  induction hs as [|[name value] rest IH]; [reflexivity|].
  cbn [header_lines map fst snd].
  change (list_sum (?x :: ?l)) with (x + list_sum l)%nat.
  rewrite !append_length, IH. cbn [CRLF String.length]. lia.
Qed.

Lemma HeadersToString_eq (t : HttpResponse) :
  HeadersToString t
  = m_statusString t +:+ header_lines (m_headers t) +:+ CRLF +:+ CRLF.
Proof.
  unfold HeadersToString. rewrite HeadersToString_loop.
  change ("" +:+ m_statusString t) with (m_statusString t).
  now rewrite append_assoc.
Qed.

Lemma wrap16_range (c : Z) : 0 <= wrap16 c < 65536.
Proof. unfold wrap16. apply Z.mod_pos_bound. lia. Qed.

(** The reader on the part of the line that starts at the code, for every
    argument of the code-setter. *)
Lemma status_text_range (c : Z) : status_text_ok (wrap16 c) = true.
Proof.
  assert (Hall : all_from (Z.to_nat 65536) 0 status_text_ok = true)
    by (vm_compute; reflexivity).
  apply (all_from_spec _ _ _ Hall (wrap16 c)).
  change (Z.of_nat (Z.to_nat 65536)) with 65536.
  pose proof (wrap16_range c). lia.
Qed.

Lemma has_line_break_app (a b : string) :
  has_line_break (a +:+ b) = has_line_break a || has_line_break b.
Proof.
  induction a as [|ch a IH]; [reflexivity|].
  change (is_line_break ch || has_line_break (a +:+ b)
          = is_line_break ch || has_line_break a || has_line_break b).
  rewrite IH. now rewrite orb_assoc.
Qed.

(** ** The two setters together *)

(** X1: of two calls of the code-setter the last one decides the whole
    object; calling it twice with one code is calling it once.  The same
    holds of the text-setter. *)
Theorem StatusCode_set_last_wins (t : HttpResponse) (c1 c2 : Z) (s1 s2 : string) :
  StatusCode_set c2 (StatusCode_set c1 t) = StatusCode_set c2 t
  /\ StatusCode_set c1 (StatusCode_set c1 t) = StatusCode_set c1 t
  /\ StatusCode_set c2 (StatusString_set s1 t) = StatusCode_set c2 t
  /\ StatusString_set s2 (StatusString_set s1 t) = StatusString_set s2 t.
Proof. repeat split. Qed.

(** X2: the two setters commute exactly when the text is the line the
    code-setter builds: a custom text survives only if the code-setter is
    not called after it. *)
Theorem setters_commute_iff (t : HttpResponse) (c : Z) (s : string) :
  StatusString_set s (StatusCode_set c t) = StatusCode_set c (StatusString_set s t)
  <-> s = status_line_spec (m_httpVersion t) (wrap16 c).
Proof.
  split.
  - intros Heq. apply (f_equal m_statusString) in Heq.
    rewrite StatusCode_set_string in Heq. exact Heq.
  - intros ->.
    pose proof (StatusCode_set_string t c) as Hs.
    unfold StatusString_set, set_statusString.
    cbn [m_headers m_httpVersion m_statusCode StatusCode_set set_statusString
         set_statusCode] in *.
    rewrite <- Hs. reflexivity.
Qed.

Lemma setters_commute_iff_witness :
  let t := mkHttpResponse [] HTTP1_1 0 "" in
  StatusString_set "HTTP/1.1 200 OK" (StatusCode_set 200 t)
  = StatusCode_set 200 (StatusString_set "HTTP/1.1 200 OK" t)
  /\ StatusString_set "HTTP/1.1 200 Fine" (StatusCode_set 200 t)
     <> StatusCode_set 200 (StatusString_set "HTTP/1.1 200 Fine" t).
Proof.
  intros t. split.
  - apply (setters_commute_iff t 200 "HTTP/1.1 200 OK"). reflexivity.
  - intros Heq. apply (setters_commute_iff t 200 "HTTP/1.1 200 Fine") in Heq.
    discriminate.
Defined.

(** ** The serializer and the setters *)

(** X3: after either setter the serialized preamble is the new status line
    followed by the same header block as before: a setter changes the first
    line of the output and nothing else. *)
Theorem HeadersToString_after_setters (t : HttpResponse) (c : Z) (s : string) :
  exists block : string,
    HeadersToString t = m_statusString t +:+ block
    /\ HeadersToString (StatusCode_set c t)
       = status_line_spec (m_httpVersion t) (wrap16 c) +:+ block
    /\ HeadersToString (StatusString_set s t) = s +:+ block
    /\ HeadersToVector (StatusString_set s t)
       = list_byte_of_string s ++ list_byte_of_string block.
Proof.
  exists (header_lines (m_headers t) +:+ CRLF +:+ CRLF).
  split; [apply HeadersToString_eq|].
  split; [|split].
  - rewrite HeadersToString_eq, StatusCode_set_string. reflexivity.
  - rewrite HeadersToString_eq. reflexivity.
  - unfold HeadersToVector. rewrite vector_of_range_bytes, HeadersToString_eq.
    cbn [StatusString_set set_statusString m_statusString m_headers].
    unfold list_byte_of_string.
    rewrite <- map_app. f_equal.
    generalize (header_lines (m_headers t) +:+ CRLF +:+ CRLF) as b.
    intros b. induction s as [|ch s IH]; [reflexivity|].
    change (ch :: list_ascii_of_string (s +:+ b)
            = ch :: (list_ascii_of_string s ++ list_ascii_of_string b)).
    now rewrite IH.
Qed.

(** X4: the size of the serialized preamble: the chars of the status string,
    for each header four chars (CRLF, colon, space) and its name and value,
    and the four chars of the closing CRLF CRLF; the vector has that many
    bytes.  So the output is never shorter than four chars. *)
Theorem HeadersToString_length (t : HttpResponse) :
  String.length (HeadersToString t)
  = (String.length (m_statusString t) + headers_size (m_headers t) + 4)%nat
  /\ List.length (HeadersToVector t)
     = (String.length (m_statusString t) + headers_size (m_headers t) + 4)%nat
  /\ (4 <= List.length (HeadersToVector t))%nat.
Proof.
  assert (Hlen : String.length (HeadersToString t)
                 = (String.length (m_statusString t)
                    + headers_size (m_headers t) + 4)%nat).
  { rewrite HeadersToString_eq, !append_length, header_lines_length.
    cbn [CRLF String.length]. lia. }
  unfold HeadersToVector. rewrite vector_of_range_length.
  repeat split; [exact Hlen | exact Hlen | lia].
Qed.

(** X5: the serializer escapes nothing.  A header value that contains CRLF
    and a further "Name: Value" serializes exactly like two headers, and a
    status text that contains them serializes like the status line and a
    header: distinct transactions give the same output. *)
Theorem HeadersToString_no_escaping (rest : list (string * string))
    (v : HttpProtocolVersion) (c : Z) (s name value name2 value2 : string) :
  HeadersToString
    (mkHttpResponse ((name, value +:+ CRLF +:+ name2 +:+ ": " +:+ value2) :: rest) v c s)
  = HeadersToString (mkHttpResponse ((name, value) :: (name2, value2) :: rest) v c s)
  /\ HeadersToString
       (mkHttpResponse rest v c (s +:+ CRLF +:+ name +:+ ": " +:+ value))
     = HeadersToString (mkHttpResponse ((name, value) :: rest) v c s).
Proof.
  rewrite !HeadersToString_eq. cbn [m_statusString m_headers header_lines].
  rewrite !append_assoc. split; reflexivity.
Qed.

(** X6: a header added at the end of the collection comes out as the last
    line before the closing blank line; what precedes it is the output
    without it. *)
Theorem HeadersToString_append_header (hs : list (string * string))
    (v : HttpProtocolVersion) (c : Z) (s name value : string) :
  exists before : string,
    HeadersToString (mkHttpResponse hs v c s) = before +:+ CRLF +:+ CRLF
    /\ HeadersToString (mkHttpResponse (hs ++ [(name, value)]) v c s)
       = before +:+ CRLF +:+ name +:+ ": " +:+ value +:+ CRLF +:+ CRLF
    /\ before = s +:+ header_lines hs.
Proof.
  exists (s +:+ header_lines hs).
  rewrite !HeadersToString_eq. cbn [m_statusString m_headers].
  rewrite header_lines_app. cbn [header_lines].
  rewrite !append_assoc. repeat split.
Qed.

(** ** The status callback and the store *)

(** X7: whatever the status callback returns, it changes at most the
    transaction its parser points to: the store keeps its addresses, every
    other transaction is as before, and the headers of every transaction are
    as before. *)
Theorem OnStatus_frame (parser : option http_parser) (at_ : list byte) (len : Z)
    (h h' : gmap nat HttpResponse) (r : Z) :
  OnStatus parser at_ len h = Some (r, h') ->
  dom h' = dom h
  /\ (forall a', (forall p, parser = Some p -> data p <> Some a') ->
        h' !! a' = h !! a')
  /\ (forall a', m_headers <$> (h' !! a') = m_headers <$> (h !! a')).
Proof.
  intros Hrun. unfold OnStatus in Hrun.
  destruct parser as [p|];
    [|assert (h' = h) as -> by congruence; repeat split].
  destruct (data p) as [a|] eqn:Hd;
    [|assert (h' = h) as -> by congruence; repeat split].
  destruct (h !! a) as [t|] eqn:Ht; [|discriminate].
  rewrite OnStatus_branches in Hrun.
  injection Hrun as Hr Hh'. subst r h'.
  split; [|split].
  - apply dom_insert_lookup_L. now exists t.
  - intros a' Hother. apply lookup_insert_ne.
    intros ->. now apply (Hother p eq_refl).
  - intros a'. destruct (decide (a = a')) as [<-|Hne].
    + rewrite lookup_insert_eq, Ht. reflexivity.
    + now rewrite lookup_insert_ne.
Qed.

Lemma OnStatus_frame_witness :
  let t1 := mkHttpResponse [("Host", "a")] Unset 0 "" in
  let t2 := mkHttpResponse [("Host", "b")] HTTP1 200 "kept" in
  let h : gmap nat HttpResponse := <[2%nat := t2]> {[ 1%nat := t1 ]} in
  exists h', OnStatus (Some (mk_http_parser 1 1 404 (Some 1%nat))) [] 0 h = Some (0, h')
             /\ h' !! 2%nat = Some t2
             /\ m_headers <$> (h' !! 1%nat) = Some [("Host", "a")].
Proof.
  intros t1 t2 h.
  eexists. split; [reflexivity|].
  destruct (OnStatus_frame (Some (mk_http_parser 1 1 404 (Some 1%nat))) [] 0 h _ 0 eq_refl)
    as (_ & Hother & Hhdr).
  split.
  - rewrite Hother; [reflexivity|].
    intros p Hp. injection Hp as <-. discriminate.
  - rewrite Hhdr. reflexivity.
Defined.

(** X8: the status callback is idempotent: a second call with the same
    parser returns the same value and leaves the store of the first call.
    It also wipes a custom status text: the store after the callback is the
    same whether or not the text-setter ran on the transaction before. *)
Theorem OnStatus_idempotent (parser : option http_parser) (at1 at2 : list byte)
    (len1 len2 : Z) (h h' : gmap nat HttpResponse) (r : Z) :
  OnStatus parser at1 len1 h = Some (r, h') ->
  OnStatus parser at2 len2 h' = Some (r, h')
  /\ (forall a t s, h !! a = Some t ->
        (exists p, parser = Some p /\ data p = Some a) ->
        OnStatus parser at1 len1 (<[a := StatusString_set s t]> h) = Some (r, h')).
Proof.
  intros Hrun. unfold OnStatus in *.
  destruct parser as [p|].
  2:{ injection Hrun as <- <-. split; [reflexivity|].
      intros a t s _ (p & Hp & _). discriminate. }
  destruct (data p) as [a|] eqn:Hd.
  2:{ injection Hrun as <- <-. split; [reflexivity|].
      intros a t s _ (p' & Hp & Hd'). injection Hp as <-. congruence. }
  destruct (h !! a) as [t|] eqn:Ht; [|discriminate].
  rewrite OnStatus_branches in Hrun. injection Hrun as <- <-.
  split.
  - rewrite lookup_insert_eq, OnStatus_branches, insert_insert_eq. reflexivity.
  - intros a' t' s Ht' (p' & Hp & Hd'). injection Hp as <-.
    rewrite Hd in Hd'. injection Hd' as <-.
    rewrite Ht in Ht'. injection Ht' as <-.
    rewrite lookup_insert_eq, OnStatus_branches, insert_insert_eq. reflexivity.
Qed.

Lemma OnStatus_idempotent_witness :
  let t := mkHttpResponse [] Unset 0 "" in
  let h : gmap nat HttpResponse := {[ 5%nat := t ]} in
  let p := mk_http_parser 1 0 301 (Some 5%nat) in
  let h' : gmap nat HttpResponse :=
    {[ 5%nat := mkHttpResponse [] HTTP1 301 "HTTP/1.0 301 Moved Permanently" ]} in
  OnStatus (Some p) [] 0 h = Some (0, h')
  /\ OnStatus (Some p) [] 0 h' = Some (0, h')
  /\ OnStatus (Some p) [] 0 (<[5%nat := StatusString_set "custom" t]> h) = Some (0, h').
Proof.
  intros t h p h'.
  assert (Hrun : OnStatus (Some p) [] 0 h = Some (0, h')).
  { unfold OnStatus, h. cbn [data p]. rewrite lookup_singleton_eq.
    rewrite insert_singleton_eq. reflexivity. }
  destruct (OnStatus_idempotent (Some p) [] [] 0 0 h h' 0 Hrun) as [Hagain Hwipe].
  split; [exact Hrun|]. split; [exact Hagain|].
  apply Hwipe; [apply lookup_singleton_eq | exists p; split; reflexivity].
Defined.

(** X9: after a successful status callback the version of the transaction
    is never unset, whatever the parser reported, and its status string
    starts with "HTTP/". *)
Theorem OnStatus_never_unset (p : http_parser) (a : nat) (t : HttpResponse)
    (h : gmap nat HttpResponse) (at_ : list byte) (len : Z) :
  data p = Some a ->
  h !! a = Some t ->
  exists (t' : HttpResponse) (rest : string),
    OnStatus (Some p) at_ len h = Some (0, <[a := t']> h)
    /\ m_httpVersion t' <> Unset
    /\ m_statusString t' = "HTTP/" +:+ rest.
Proof.
  intros Hd Ht.
  rewrite (OnStatus_success p a t h at_ len Hd Ht).
  set (v := resolved_version (http_major p) (http_minor p)).
  assert (Hv : v <> Unset).
  { unfold v, resolved_version. repeat case_decide; discriminate. }
  destruct v eqn:Ev; [congruence| | |].
  all: eexists; eexists; split; [reflexivity|]; split; [exact Hv|];
    rewrite StatusCode_set_string; reflexivity.
Qed.

Lemma OnStatus_never_unset_witness :
  let t := mkHttpResponse [] Unset 0 "" in
  exists (t' : HttpResponse) (rest : string),
    OnStatus (Some (mk_http_parser 9 9 204 (Some 4%nat))) [] 0 {[ 4%nat := t ]}
    = Some (0, <[4%nat := t']> {[ 4%nat := t ]})
    /\ m_httpVersion t' <> Unset
    /\ m_statusString t' = "HTTP/" +:+ rest.
Proof.
  intros t.
  apply (OnStatus_never_unset (mk_http_parser 9 9 204 (Some 4%nat)) 4%nat t).
  - reflexivity.
  - apply lookup_singleton_eq.
Defined.

(** X10: a transaction straight from the constructor, whatever its storage
    held, is fully determined after the first status callback through its
    own parser: the status code is the parser's, the version the resolved
    one, the status string the line of both.  The value that the constructor
    left in the status code does not survive. *)
Theorem ctor_then_OnStatus (storage : Z) (this : nat) (major minor code : Z)
    (at_ : list byte) (len : Z) :
  let t := fst (HttpResponse_ctor storage this) in
  let p := snd (HttpResponse_ctor storage this) in
  let v := resolved_version major minor in
  OnStatus (Some (mk_http_parser major minor code (data p))) at_ len {[ this := t ]}
  = Some (0, {[ this := mkHttpResponse [] v (wrap16 code)
                          (status_line_spec v (wrap16 code)) ]}).
Proof.
  intros t p v.
  rewrite (OnStatus_success _ this t); [|reflexivity|apply lookup_singleton_eq].
  rewrite insert_singleton_eq.
  cbn [http_major http_minor status_code]. fold v.
  f_equal. f_equal. f_equal.
  pose proof (StatusCode_set_string (set_httpVersion v t) code) as Hs.
  unfold StatusCode_set, set_statusString, set_statusCode in *.
  cbn [m_headers m_httpVersion m_statusCode m_statusString set_httpVersion] in *.
  rewrite Hs. reflexivity.
Qed.

(** ** The status line that the code-setter builds *)

(** What [status_text_ok] says of the part of the line from the code on. *)
Lemma status_text_ok_spec (c : Z) :
  status_text_ok c = true ->
  read_status_line (to_string c +:+ " " +:+ StatusCodeToMessage c) = (Unset, c)
  /\ has_line_break (to_string c +:+ " " +:+ StatusCodeToMessage c) = false.
Proof.
  unfold status_text_ok. cbv zeta.
  destruct (read_status_line _) as [v n].
  destruct v; try discriminate.
  intros Hok. apply andb_true_iff in Hok as [Hn Hbr].
  apply Z.eqb_eq in Hn. apply negb_true_iff in Hbr. now subst.
Qed.

(** The reader gives back the version and the code of a line. *)
Lemma read_status_line_spec (v : HttpProtocolVersion) (c : Z) :
  read_status_line (status_line_spec v (wrap16 c)) = (v, wrap16 c).
Proof.
  destruct (status_text_ok_spec _ (status_text_range c)) as [Hread _].
  set (body := to_string (wrap16 c) +:+ " " +:+ StatusCodeToMessage (wrap16 c)) in *.
  assert (Hnum : leading_number body 0 = wrap16 c).
  { unfold read_status_line in Hread.
    destruct (strip_prefix "HTTP/1.0 " body); [discriminate|].
    destruct (strip_prefix "HTTP/1.1 " body); [discriminate|].
    destruct (strip_prefix "HTTP/2.0 " body); [discriminate|].
    now injection Hread. }
  destruct v; [exact Hread| | |].
  all: unfold read_status_line, status_line_spec; cbn [version_token]; fold body.
  all: cbv [strip_prefix String.append Ascii.eqb Bool.eqb];
       rewrite Hnum; reflexivity.
Qed.

(** X11: the status string that the code-setter builds contains neither CR
    nor LF, for every argument and every version: it is one line. *)
Theorem StatusCode_set_single_line (t : HttpResponse) (c : Z) :
  has_line_break (StatusString (StatusCode_set c t)) = false.
Proof.
  unfold StatusString. rewrite StatusCode_set_string.
  destruct (status_text_ok_spec _ (status_text_range c)) as [_ Hbody].
  unfold status_line_spec.
  destruct (m_httpVersion t); cbn [version_token]; [exact Hbody| | |].
  all: rewrite has_line_break_app; cbn [has_line_break is_line_break orb];
       rewrite has_line_break_app, Hbody; reflexivity.
Qed.

(** X12: every code of the table lies between 100 and 599; for a code
    below 100 or above 599 the phrase is empty, so the status line that the
    code-setter builds for it ends with the space after the code. *)
Theorem StatusCodeToMessage_outside_table (t : HttpResponse) (c : Z) :
  0 <= c < 65536 ->
  (In c known_status_codes -> 100 <= c <= 599)
  /\ (c < 100 \/ 599 < c ->
        StatusCodeToMessage c = ""
        /\ exists line, StatusString (StatusCode_set c t) = line +:+ to_string c +:+ " ").
Proof.
  intros Hc.
  assert (Hbound : In c known_status_codes -> 100 <= c <= 599).
  { assert (Hall : forallb (fun c => (100 <=? c) && (c <=? 599)) known_status_codes = true)
      by reflexivity.
    intros Hin. rewrite forallb_forall in Hall. specialize (Hall c Hin). lia. }
  split; [exact Hbound|].
  intros Hout.
  assert (Hempty : StatusCodeToMessage c = "").
  { pose proof (StatusCodeToMessage_range c Hc) as Hr.
    destruct (is_known_status_code c) eqn:Hk.
    - apply is_known_status_code_In in Hk. apply Hbound in Hk. lia.
    - now apply String.eqb_eq. }
  split; [exact Hempty|].
  unfold StatusString.
  rewrite StatusCode_set_string, (wrap16_small c Hc).
  unfold status_line_spec. rewrite Hempty.
  destruct (m_httpVersion t); cbn [version_token].
  - exists "". reflexivity.
  - exists "HTTP/1.0 ". reflexivity.
  - exists "HTTP/1.1 ". reflexivity.
  - exists "HTTP/2.0 ". reflexivity.
Qed.

Lemma StatusCodeToMessage_outside_table_witness :
  0 <= 600 < 65536
  /\ StatusCodeToMessage 600 = ""
  /\ exists line, StatusString (StatusCode_set 600 (mkHttpResponse [] HTTP2 0 ""))
                  = line +:+ to_string 600 +:+ " ".
Proof.
  split; [lia|].
  destruct (StatusCodeToMessage_outside_table (mkHttpResponse [] HTTP2 0 "") 600)
    as [_ Hout]; [lia|].
  apply Hout. right. lia.
Defined.

(** X13: the status line determines what it was built from: if the
    code-setter leaves the same status string in two transactions, they have
    the same version and were given the same code. *)
Theorem StatusCode_set_line_injective (t1 t2 : HttpResponse) (c1 c2 : Z) :
  0 <= c1 < 65536 ->
  0 <= c2 < 65536 ->
  StatusString (StatusCode_set c1 t1) = StatusString (StatusCode_set c2 t2) ->
  m_httpVersion t1 = m_httpVersion t2 /\ c1 = c2.
Proof.
  intros H1 H2 Heq. unfold StatusString in Heq.
  rewrite !StatusCode_set_string in Heq.
  apply (f_equal read_status_line) in Heq.
  rewrite !read_status_line_spec in Heq.
  rewrite (wrap16_small c1 H1), (wrap16_small c2 H2) in Heq.
  injection Heq as Hv Hc. now split.
Qed.

Lemma StatusCode_set_line_injective_witness :
  let t := mkHttpResponse [] HTTP1_1 0 "" in
  (0 <= 404 < 65536)
  /\ StatusString (StatusCode_set 404 t) = StatusString (StatusCode_set 404 (StatusString_set "x" t))
  /\ m_httpVersion t = m_httpVersion (StatusString_set "x" t) /\ 404 = 404.
Proof.
  intros t. split; [lia|]. split; [reflexivity|].
  apply (StatusCode_set_line_injective t (StatusString_set "x" t) 404 404);
    [lia | lia | reflexivity].
Defined.
